(** * NEP-141 basic contract: registry, escrow and balance ledger

    A shallow embedding of the contract class of
    [src/nep141-basic/assembly/index_old.ts] (token registry with escrow)
    and of its newer version (fungible balances, [ft_*] entry points),
    together with the constants of [models.ts].

    Persistent collections are finite maps, the execution context is a
    record, and every entry point is a computation in a small
    state-and-error monad: a failed [assert] aborts the invocation and
    none of its writes persist. *)

From Stdlib Require Import ZArith String List.
From stdpp Require Import gmap strings fin_maps.
Import ListNotations.

Open Scope string_scope.
Open Scope Z_scope.

(** ** Data types and storage (models.ts, utils) *)

Abbreviation AccountId := string (only parsing).
Abbreviation TokenId := Z (only parsing).

(** Unsigned machine integers are integers with their wrap-around. *)
Definition u64 (n : Z) : Z := n mod 2 ^ 64.
Definition u128 (n : Z) : Z := n mod 2 ^ 128.

(** [export const MAX_SUPPLY = u64(10)] *)
Definition MAX_SUPPLY : Z := u64 10.

(** The error messages of models.ts; [ERROR_KEY_NOT_FOUND] is the failure
    of [PersistentMap.getSome] on an absent key. *)
Inductive Error : Set :=
| ERROR_NO_ESCROW_REGISTERED
| ERROR_CALLER_ID_DOES_NOT_MATCH_EXPECTATION
| ERROR_MAXIMUM_TOKEN_LIMIT_REACHED
| ERROR_OWNER_ID_DOES_NOT_MATCH_EXPECTATION
| ERROR_TOKEN_NOT_OWNED_BY_CALLER
| ERROR_INSUFFICIENT_FUNDS
| ERROR_DEPOSIT_DOES_NOT_MATCH_EXPECTATION
| ERROR_KEY_NOT_FOUND.

(** Outcome of the promise a callback is attached to. The contract never
    reads it; it is part of the environment of [ft_resolve_transfer]. *)
Inductive PromiseResult : Set :=
| PromiseFailed
| PromiseSuccessful (unused : Z).

(** The execution context of one invocation. [sender] is the account
    read as [Context.sender], [predecessor] the one read as
    [context.predecessor], [contractName] the contract's own account. *)
Record Context : Set := mkContext {
  sender : AccountId;
  predecessor : AccountId;
  contractName : AccountId;
  attachedDeposit : Z;
  promiseResult : PromiseResult
}.

(** The persistent state: the three [PersistentMap]s of the class and the
    primitive stored under the key [TOTAL_SUPPLY]. *)
Record State : Type := mkState {
  tokenToOwner : gmap Z string;
  escrowAccess : gmap string string;
  balances : gmap string Z;
  storage_TOTAL_SUPPLY : option Z
}.

Definition empty_state : State :=
  {| tokenToOwner := ∅; escrowAccess := ∅; balances := ∅;
     storage_TOTAL_SUPPLY := None |}.

Definition with_tokenToOwner (m : gmap Z string) (st : State) : State :=
  {| tokenToOwner := m; escrowAccess := escrowAccess st;
     balances := balances st;
     storage_TOTAL_SUPPLY := storage_TOTAL_SUPPLY st |}.

Definition with_escrowAccess (m : gmap string string) (st : State) : State :=
  {| tokenToOwner := tokenToOwner st; escrowAccess := m;
     balances := balances st;
     storage_TOTAL_SUPPLY := storage_TOTAL_SUPPLY st |}.

Definition with_balances (m : gmap string Z) (st : State) : State :=
  {| tokenToOwner := tokenToOwner st; escrowAccess := escrowAccess st;
     balances := m;
     storage_TOTAL_SUPPLY := storage_TOTAL_SUPPLY st |}.

Definition with_TOTAL_SUPPLY (v : option Z) (st : State) : State :=
  {| tokenToOwner := tokenToOwner st; escrowAccess := escrowAccess st;
     balances := balances st;
     storage_TOTAL_SUPPLY := v |}.

(** ** The invocation monad *)

Inductive Result (A : Type) : Type :=
| Ok (a : A)
| Err (e : Error).
Arguments Ok {A} a.
Arguments Err {A} e.

Definition Call (A : Type) : Type := State -> Result (A * State).

Definition ret {A} (a : A) : Call A := fun st => Ok (a, st).

Definition bind {A B} (c : Call A) (k : A -> Call B) : Call B :=
  fun st => match c st with
            | Ok (a, st') => k a st'
            | Err e => Err e
            end.

Notation "'let*' x ':=' c 'in' k" := (bind c (fun x => k))
  (at level 10, x name, c at level 100, k at level 200).
Notation "c ';;' k" := (bind c (fun _ => k))
  (at level 100, k at level 200, right associativity).

Definition assert (b : bool) (e : Error) : Call unit :=
  fun st => if b then Ok (tt, st) else Err e.

Definition gets {A} (f : State -> A) : Call A := fun st => Ok (f st, st).
Definition modify (f : State -> State) : Call unit := fun st => Ok (tt, f st).

(** The state an invocation leaves behind: its own on success, the one
    it started from when it aborted. *)
Definition commit {A} (r : Result (A * State)) (st : State) : State :=
  match r with
  | Ok (_, st') => st'
  | Err _ => st
  end.

Definition succeeds {A} (r : Result (A * State)) : bool :=
  match r with Ok _ => true | Err _ => false end.

(** ** PersistentMap and storage primitives *)

Definition tokenToOwner_getSome (k : TokenId) : Call AccountId :=
  fun st => match tokenToOwner st !! k with
            | Some v => Ok (v, st)
            | None => Err ERROR_KEY_NOT_FOUND
            end.

Definition tokenToOwner_set (k : TokenId) (v : AccountId) : Call unit :=
  modify (fun st => with_tokenToOwner (<[k := v]> (tokenToOwner st)) st).

(** [escrowAccess.get(k)]: the default is [null], here [None]. *)
Definition escrowAccess_get (k : AccountId) : Call (option AccountId) :=
  gets (fun st => escrowAccess st !! k).

Definition escrowAccess_getSome (k : AccountId) : Call AccountId :=
  fun st => match escrowAccess st !! k with
            | Some v => Ok (v, st)
            | None => Err ERROR_KEY_NOT_FOUND
            end.

Definition escrowAccess_contains (k : AccountId) : Call bool :=
  gets (fun st => bool_decide (is_Some (escrowAccess st !! k))).

Definition escrowAccess_set (k v : AccountId) : Call unit :=
  modify (fun st => with_escrowAccess (<[k := v]> (escrowAccess st)) st).

Definition escrowAccess_delete (k : AccountId) : Call unit :=
  modify (fun st => with_escrowAccess (delete k (escrowAccess st)) st).

(** [balances.get(k, d)] with an explicit default. *)
Definition balances_get_or (k : AccountId) (d : Z) : Call Z :=
  gets (fun st => default d (balances st !! k)).

(** [balances.get(k)]: the default is [null], here [None]. *)
Definition balances_get (k : AccountId) : Call (option Z) :=
  gets (fun st => balances st !! k).

Definition balances_set (k : AccountId) (v : Z) : Call unit :=
  modify (fun st => with_balances (<[k := v]> (balances st)) st).

(** [storage.getPrimitive<u64>(TOTAL_SUPPLY, d)] *)
Definition storage_getPrimitive_TOTAL_SUPPLY (d : Z) : Call Z :=
  gets (fun st => default d (storage_TOTAL_SUPPLY st)).

(** [storage.set<u64>(TOTAL_SUPPLY, v)] *)
Definition storage_set_TOTAL_SUPPLY (v : Z) : Call unit :=
  modify (fun st => with_TOTAL_SUPPLY (Some v) st).

(** [[a, b].includes(x)] on an array of nullable strings. *)
Definition includes (l : list (option AccountId)) (x : AccountId) : bool :=
  existsb (fun y => bool_decide (y = Some x)) l.

(** ** Objects and identity *)

(** Where an object lives. The constants of a module are built when the
    module is loaded, the arguments of a call are decoded before its
    body runs, and every object the host hands out to the running body
    is newly allocated: the three never coincide. *)
Inductive Addr : Set :=
| AtConstant (n : positive)
| AtArgument (n : positive)
| AtFresh (n : positive).

Definition addr_eqb (a b : Addr) : bool :=
  match a, b with
  | AtConstant n, AtConstant m => (n =? m)%positive
  | AtArgument n, AtArgument m => (n =? m)%positive
  | AtFresh n, AtFresh m => (n =? m)%positive
  | _, _ => false
  end.

(** A reference to an object ([u128], [string]): its place and what it
    holds. *)
Record Ref (A : Type) : Type := mkRef { ref_addr : Addr; ref_val : A }.
Arguments mkRef {A} ref_addr ref_val.
Arguments ref_addr {A} r.
Arguments ref_val {A} r.

(** [a === b] on two references: one and the same object. The contents
    play no part (the overloaded [==] is the one that compares them). *)
Definition same_object {A} (a b : Ref A) : bool :=
  addr_eqb (ref_addr a) (ref_addr b).

(** The [n]-th argument of the call, as decoded for the method. *)
Definition argument {A} (n : positive) (v : A) : Ref A :=
  mkRef (AtArgument n) v.

(** [context.attachedDeposit] and [context.predecessor] as objects: each
    read of the getter builds a new [u128], a new [string]. In the
    methods below it is the first object the body allocates. *)
Definition context_attachedDeposit (ctx : Context) : Ref Z :=
  mkRef (AtFresh 1) (attachedDeposit ctx).

Definition context_predecessor (ctx : Context) : Ref AccountId :=
  mkRef (AtFresh 1) (predecessor ctx).

(** ** The contract class *)

Section Contract.

(** [EXPECTED_DEPOSIT = toYocto(1)]: [toYocto] belongs to the [utils]
    module, so the constant is a parameter of the development. *)
Variable EXPECTED_DEPOSIT : Z.

(** The constant as the object the module holds; the guards spell it
    [EXPECETED_DEPOSIT]. *)
Definition EXPECTED_DEPOSIT_object : Ref Z :=
  mkRef (AtConstant 1) EXPECTED_DEPOSIT.

(** *** Change methods of the registry (index_old.ts) *)

Definition grant_access (ctx : Context) (escrow_account_id : AccountId)
  : Call unit :=
  escrowAccess_set (predecessor ctx) escrow_account_id.

Definition revoke_access (ctx : Context) (escrow_account_id : AccountId)
  : Call unit :=
  escrowAccess_delete (predecessor ctx).

(** The source binds [context.predecessor] to a constant spelt
    [prdecessor] and then reads [predecessor]; both are the caller. *)
Definition transfer_from (ctx : Context)
    (owner_id new_owner_id : AccountId) (token_id : TokenId) : Call unit :=
  let predecessor := predecessor ctx in
  let* owner := tokenToOwner_getSome token_id in
  assert (bool_decide (owner = owner_id))
         ERROR_OWNER_ID_DOES_NOT_MATCH_EXPECTATION ;;
  let* escrow := escrowAccess_get owner in
  assert (includes [Some owner; escrow] predecessor)
         ERROR_CALLER_ID_DOES_NOT_MATCH_EXPECTATION ;;
  tokenToOwner_set token_id new_owner_id.

(** Modelled from the spec: [transfer] is imported by the tests from the
    assembly but no source file defines it. The spec (4.1) makes it the
    owner-only path: like [transfer_from], but the caller must be the
    recorded owner of the token, and any other caller, an authorised
    delegate included, is rejected with [CallerNotOwner], the message
    [ERROR_TOKEN_NOT_OWNED_BY_CALLER] of models.ts. *)
Definition transfer (ctx : Context)
    (new_owner_id : AccountId) (token_id : TokenId) : Call unit :=
  let* owner := tokenToOwner_getSome token_id in
  assert (bool_decide (predecessor ctx = owner))
         ERROR_TOKEN_NOT_OWNED_BY_CALLER ;;
  tokenToOwner_set token_id new_owner_id.

(** *** View methods of the registry *)

Definition check_access (ctx : Context) (account_id : AccountId)
  : Call bool :=
  let caller := predecessor ctx in
  assert (negb (bool_decide (caller = account_id)))
         ERROR_CALLER_ID_DOES_NOT_MATCH_EXPECTATION ;;
  let* present := escrowAccess_contains account_id in
  if negb present then ret false
  else
    let* escrow := escrowAccess_getSome account_id in
    ret (bool_decide (escrow = caller)).

Definition get_token_owner (token_id : TokenId) : Call AccountId :=
  tokenToOwner_getSome token_id.

(** *** Non-spec methods *)

(** The source declares [const tokenId] with no value (a TODO says it
    will come from off-chain storage) and reads the counter into
    [currentSupply]. The identifier is therefore an argument of the
    model: nothing in the method determines it. *)
Definition mint_to (tokenId : TokenId) (owner_id : AccountId) : Call Z :=
  let* currentSupply := storage_getPrimitive_TOTAL_SUPPLY 1 in
  assert (currentSupply <=? MAX_SUPPLY) ERROR_MAXIMUM_TOKEN_LIMIT_REACHED ;;
  tokenToOwner_set tokenId owner_id ;;
  storage_set_TOTAL_SUPPLY (u64 (tokenId + 1)) ;;
  ret tokenId.

(** *** NEP-141 change methods on the fungible token *)

(** The deposit guard is written with [===]: it asks whether the object
    returned by the getter is the constant itself. *)
Definition ft_transfer (ctx : Context)
    (receiver_id : AccountId) (amount : Z) (memo : option string)
  : Call unit :=
  assert (same_object (context_attachedDeposit ctx) EXPECTED_DEPOSIT_object)
         ERROR_DEPOSIT_DOES_NOT_MATCH_EXPECTATION ;;
  let* senderBalance := balances_get_or (sender ctx) 0 in
  assert (senderBalance >? amount) ERROR_INSUFFICIENT_FUNDS ;;
  let* receiverBalance := balances_get_or receiver_id 0 in
  balances_set (sender ctx) (u128 (senderBalance - amount)) ;;
  balances_set receiver_id (u128 (receiverBalance + amount)).

(** The body ends after the two writes: no promise is created. *)
Definition ft_transfer_call (ctx : Context)
    (receiver_id : AccountId) (amount : Z) (memo : option string)
    (msg : string) : Call unit :=
  assert (same_object (context_attachedDeposit ctx) EXPECTED_DEPOSIT_object)
         ERROR_DEPOSIT_DOES_NOT_MATCH_EXPECTATION ;;
  let* senderBalance := balances_get_or (sender ctx) 0 in
  assert (senderBalance >? amount) ERROR_INSUFFICIENT_FUNDS ;;
  let* receiverBalance := balances_get_or receiver_id 0 in
  balances_set (sender ctx) (u128 (senderBalance - amount)) ;;
  balances_set receiver_id (u128 (receiverBalance + amount)).

(** *** NEP-141 view methods *)

Definition ft_total_supply : Call Z := ret MAX_SUPPLY.

(** [return balances.get(account_id)]: no default is passed. *)
Definition ft_balance_of (account_id : AccountId) : Call (option Z) :=
  balances_get account_id.

(** The body is the assertion alone, written with [===] between the
    string the getter returns and the first argument; no value is
    returned ([None]). *)
Definition ft_resolve_transfer (ctx : Context)
    (sender_id receiver_id : AccountId) (amount : Z)
  : Call (option Z) :=
  assert (same_object (context_predecessor ctx) (argument 1 sender_id))
         ERROR_CALLER_ID_DOES_NOT_MATCH_EXPECTATION ;;
  ret None.

(** ** Observations used by the statements *)

(** A context for a call by [who] with the given deposit. *)
Definition call_by (who self : AccountId) (deposit : Z)
    (outcome : PromiseResult) : Context :=
  {| sender := who; predecessor := who; contractName := self;
     attachedDeposit := deposit; promiseResult := outcome |}.

(** A ledger holding the given balance records and nothing else. *)
Definition ledger (b : gmap string Z) : State := with_balances b empty_state.

(** A registry where token 1 belongs to alice and bob is her delegate. *)
Definition registry_A : State :=
  with_escrowAccess {[ "alice" := "bob" ]}
    (with_tokenToOwner {[ 1 := "alice" ]} empty_state).

(** The loop of the supply test: [while (limit-- > 0) mint_to(owner)]. *)
Fixpoint mint_loop (limit : nat) (tokenId : TokenId) (owner_id : AccountId)
  : Call unit :=
  match limit with
  | O => ret tt
  | S limit' => mint_to tokenId owner_id ;; mint_loop limit' tokenId owner_id
  end.

(** ** Running the monad *)

Lemma bind_Ok {A B} (c : Call A) (k : A -> Call B) st a st' :
  c st = Ok (a, st') -> bind c k st = k a st'.
Proof. intros H. unfold bind. now rewrite H. Qed.

Lemma bind_Err {A B} (c : Call A) (k : A -> Call B) st e :
  c st = Err e -> bind c k st = Err e.
Proof. intros H. unfold bind. now rewrite H. Qed.

Lemma assert_true e st : assert true e st = Ok (tt, st).
Proof. reflexivity. Qed.

Lemma assert_false e st : assert false e st = Err e.
Proof. reflexivity. Qed.

Lemma tokenToOwner_getSome_Some t o st :
  tokenToOwner st !! t = Some o -> tokenToOwner_getSome t st = Ok (o, st).
Proof. intros H. unfold tokenToOwner_getSome. now rewrite H. Qed.

Lemma includes_owner_escrow (owner : AccountId) escrow caller :
  includes [Some owner; escrow] caller = true <->
  caller = owner \/ escrow = Some caller.
Proof.
  unfold includes. simpl. rewrite !orb_true_iff, !bool_decide_eq_true.
  split.
  - intros [H | [H | H]]; [left; congruence | now right | discriminate].
  - intros [H | H]; [left; congruence | right; now left].
Qed.

(** Unfold one entry point down to matches on the state. *)
Ltac run_call :=
  unfold bind, assert, ret,
    tokenToOwner_getSome, tokenToOwner_set,
    escrowAccess_get, escrowAccess_getSome, escrowAccess_contains,
    escrowAccess_set, escrowAccess_delete,
    balances_get_or, balances_get, balances_set,
    storage_getPrimitive_TOTAL_SUPPLY, storage_set_TOTAL_SUPPLY,
    gets, modify;
  cbv beta iota zeta.

(** ** The registry and the escrow directory *)

(** [get_token_owner] reads the ownership record. *)
Lemma get_token_owner_Some t o st :
  tokenToOwner st !! t = Some o -> get_token_owner t st = Ok (o, st).
Proof. apply tokenToOwner_getSome_Some. Qed.

(** An unminted token has no owner: the lookup aborts. *)
Lemma get_token_owner_None t st :
  tokenToOwner st !! t = None -> get_token_owner t st = Err ERROR_KEY_NOT_FOUND.
Proof.
  intros H. unfold get_token_owner, tokenToOwner_getSome. now rewrite H.
Qed.

(** After [grant_access d] by the caller, the caller's record names [d]. *)
Lemma grant_access_sets ctx d st :
  exists st', grant_access ctx d st = Ok (tt, st') /\
              escrowAccess st' !! predecessor ctx = Some d.
Proof.
  eexists. split; [reflexivity |]. simpl. apply lookup_insert_eq.
Qed.

(** C10: [revoke_access] ignores its argument. Called by the same caller
    from the same state with any two delegate names it gives the same
    outcome; it always succeeds, the caller's escrow record is absent
    afterwards whatever it held before, and nothing else changes. *)
Theorem revoke_access_ignores_argument ctx (d1 d2 : AccountId) st :
  revoke_access ctx d1 st = revoke_access ctx d2 st /\
  exists st',
    revoke_access ctx d1 st = Ok (tt, st') /\
    escrowAccess st' !! predecessor ctx = None /\
    escrowAccess st' = delete (predecessor ctx) (escrowAccess st) /\
    tokenToOwner st' = tokenToOwner st /\
    balances st' = balances st /\
    storage_TOTAL_SUPPLY st' = storage_TOTAL_SUPPLY st.
Proof.
  split; [reflexivity |].
  eexists. split; [reflexivity |]. simpl.
  split; [apply lookup_delete_eq | auto].
Qed.

(** C5: for a minted token [t] with recorded owner [o],
    [transfer_from expected_owner new_owner t] fails with the owner
    mismatch error when [expected_owner <> o]; otherwise it fails with
    the caller error unless the caller is [o] or the delegate recorded
    for [o]; and for such a caller it succeeds, the owner of [t] becomes
    [new_owner], and every other record is left as it was. *)
Theorem transfer_from_spec ctx (expected_owner new_owner o : AccountId)
    (t : TokenId) st :
  tokenToOwner st !! t = Some o ->
  (expected_owner <> o ->
     transfer_from ctx expected_owner new_owner t st
     = Err ERROR_OWNER_ID_DOES_NOT_MATCH_EXPECTATION) /\
  (expected_owner = o ->
     predecessor ctx <> o ->
     escrowAccess st !! o <> Some (predecessor ctx) ->
     transfer_from ctx expected_owner new_owner t st
     = Err ERROR_CALLER_ID_DOES_NOT_MATCH_EXPECTATION) /\
  (expected_owner = o ->
     predecessor ctx = o \/ escrowAccess st !! o = Some (predecessor ctx) ->
     transfer_from ctx expected_owner new_owner t st
     = Ok (tt, with_tokenToOwner (<[t := new_owner]> (tokenToOwner st)) st)).
Proof.
  intros Hown. unfold transfer_from. run_call. rewrite Hown.
  repeat split.
  - intros Hne. rewrite bool_decide_eq_false_2 by congruence. reflexivity.
  - intros -> Hc He. rewrite bool_decide_eq_true_2 by reflexivity.
    destruct (includes _ _) eqn:Hin; [| reflexivity].
    apply includes_owner_escrow in Hin. tauto.
  - intros -> Hc. rewrite bool_decide_eq_true_2 by reflexivity.
    apply includes_owner_escrow in Hc. rewrite Hc. reflexivity.
Qed.

Lemma transfer_from_spec_witness :
  tokenToOwner registry_A !! 1 = Some "alice" /\
  transfer_from (call_by "bob" "nft" 0 PromiseFailed) "bob" "carol" 1 registry_A
  = Err ERROR_OWNER_ID_DOES_NOT_MATCH_EXPECTATION /\
  transfer_from (call_by "dave" "nft" 0 PromiseFailed) "alice" "dave" 1 registry_A
  = Err ERROR_CALLER_ID_DOES_NOT_MATCH_EXPECTATION /\
  transfer_from (call_by "bob" "nft" 0 PromiseFailed) "alice" "carol" 1 registry_A
  = Ok (tt, with_tokenToOwner (<[1 := "carol"]> (tokenToOwner registry_A))
                              registry_A).
Proof.
  assert (Hreg : tokenToOwner registry_A !! 1 = Some "alice") by reflexivity.
  split; [exact Hreg |].
  split; [| split].
  - apply (transfer_from_spec (call_by "bob" "nft" 0 PromiseFailed)
             "bob" "carol" "alice" 1 registry_A Hreg).
    discriminate.
  - apply (transfer_from_spec (call_by "dave" "nft" 0 PromiseFailed)
             "alice" "dave" "alice" 1 registry_A Hreg).
    + reflexivity.
    + discriminate.
    + vm_compute. discriminate.
  - apply (transfer_from_spec (call_by "bob" "nft" 0 PromiseFailed)
             "alice" "carol" "alice" 1 registry_A Hreg).
    + reflexivity.
    + right. reflexivity.
Defined.

(** C6: for a minted token [t] with recorded owner [o], the direct path
    [transfer new_owner t] succeeds only when the caller is [o] (and then
    records [new_owner]); every other caller gets the not-owned error,
    the delegate currently recorded for [o] included. *)
Theorem transfer_owner_only ctx (new_owner o : AccountId) (t : TokenId) st :
  tokenToOwner st !! t = Some o ->
  (forall r, transfer ctx new_owner t st = Ok r -> predecessor ctx = o) /\
  (predecessor ctx = o ->
     transfer ctx new_owner t st
     = Ok (tt, with_tokenToOwner (<[t := new_owner]> (tokenToOwner st)) st)) /\
  (predecessor ctx <> o ->
     transfer ctx new_owner t st = Err ERROR_TOKEN_NOT_OWNED_BY_CALLER) /\
  (predecessor ctx <> o ->
     escrowAccess st !! o = Some (predecessor ctx) ->
     transfer ctx new_owner t st = Err ERROR_TOKEN_NOT_OWNED_BY_CALLER).
Proof.
  intros Hown. unfold transfer. run_call. rewrite Hown.
  destruct (bool_decide (predecessor ctx = o)) eqn:Hd.
  - apply bool_decide_eq_true in Hd. repeat split; auto; contradiction.
  - apply bool_decide_eq_false in Hd. repeat split; auto; try contradiction.
    intros r Hr. discriminate Hr.
Qed.

Lemma transfer_owner_only_witness :
  tokenToOwner registry_A !! 1 = Some "alice" /\
  transfer (call_by "alice" "nft" 0 PromiseFailed) "carol" 1 registry_A
  = Ok (tt, with_tokenToOwner (<[1 := "carol"]> (tokenToOwner registry_A))
                              registry_A) /\
  transfer (call_by "bob" "nft" 0 PromiseFailed) "carol" 1 registry_A
  = Err ERROR_TOKEN_NOT_OWNED_BY_CALLER.
Proof.
  assert (Hreg : tokenToOwner registry_A !! 1 = Some "alice") by reflexivity.
  split; [exact Hreg |]. split.
  - apply (transfer_owner_only (call_by "alice" "nft" 0 PromiseFailed)
             "carol" "alice" 1 registry_A Hreg).
    reflexivity.
  - apply (transfer_owner_only (call_by "bob" "nft" 0 PromiseFailed)
             "carol" "alice" 1 registry_A Hreg).
    + discriminate.
    + reflexivity.
Defined.

(** Scenario A: alice's token, moved by her delegate bob to carol, is
    carol's afterwards, and alice's escrow record still names bob. *)
Example scenario_A :
  exists st1 st2 st3,
    mint_to 1 "alice" empty_state = Ok (1, st1) /\
    grant_access (call_by "alice" "nft" 0 PromiseFailed) "bob" st1
    = Ok (tt, st2) /\
    transfer_from (call_by "bob" "nft" 0 PromiseFailed) "alice" "carol" 1 st2
    = Ok (tt, st3) /\
    get_token_owner 1 st3 = Ok ("carol", st3) /\
    escrowAccess st3 !! "alice" = Some "bob".
Proof. do 3 eexists. repeat split; vm_compute; reflexivity. Qed.

(** ** Minting *)

Lemma mint_to_unfold tokenId (owner_id : AccountId) st :
  mint_to tokenId owner_id st =
  if default 1 (storage_TOTAL_SUPPLY st) <=? MAX_SUPPLY then
    Ok (tokenId,
        with_TOTAL_SUPPLY (Some (u64 (tokenId + 1)))
          (with_tokenToOwner (<[tokenId := owner_id]> (tokenToOwner st)) st))
  else Err ERROR_MAXIMUM_TOKEN_LIMIT_REACHED.
Proof.
  unfold mint_to. run_call.
  destruct (default 1 (storage_TOTAL_SUPPLY st) <=? MAX_SUPPLY); reflexivity.
Qed.

(** X10: the guard compares the stored counter, read with default 1:
    [mint_to] is rejected with the limit error exactly when that counter
    is greater than [MAX_SUPPLY]. *)
Lemma mint_to_fails_iff tokenId (owner_id : AccountId) st :
  mint_to tokenId owner_id st = Err ERROR_MAXIMUM_TOKEN_LIMIT_REACHED <->
  MAX_SUPPLY < default 1 (storage_TOTAL_SUPPLY st).
Proof.
  rewrite mint_to_unfold.
  destruct (Z.leb_spec (default 1 (storage_TOTAL_SUPPLY st)) MAX_SUPPLY).
  - split; [discriminate | lia].
  - split; [lia | reflexivity].
Qed.

(** A rejected mint leaves the whole state, the counter included, as it
    was. *)
Lemma mint_to_rejected_keeps_state tokenId (owner_id : AccountId) st e :
  mint_to tokenId owner_id st = Err e ->
  e = ERROR_MAXIMUM_TOKEN_LIMIT_REACHED /\
  commit (mint_to tokenId owner_id st) st = st.
Proof.
  intros H. rewrite H. split; [| reflexivity].
  rewrite mint_to_unfold in H.
  destruct (_ <=? _); [discriminate | congruence].
Qed.

(** The identifier returned is the one bound to [tokenId], whatever the
    counter holds, and its owner is the account minted to. *)
Lemma mint_to_returns_tokenId tokenId (owner_id : AccountId) st r st' :
  mint_to tokenId owner_id st = Ok (r, st') ->
  r = tokenId /\
  get_token_owner r st' = Ok (owner_id, st') /\
  storage_TOTAL_SUPPLY st' = Some (u64 (tokenId + 1)).
Proof.
  rewrite mint_to_unfold. destruct (_ <=? _); [| discriminate].
  intros [= <- <-]. split; [reflexivity |]. split; [| reflexivity].
  apply get_token_owner_Some. simpl. apply lookup_insert_eq.
Qed.

(** C7: the identifier is not allocated from the supply. With the same
    value bound to [tokenId] in two successive mints on the empty
    registry, both return that value (here 0, not 1 and then 2), and
    the second mint replaces the owner recorded by the first. *)
Theorem mint_to_identifier_not_from_supply :
  exists st1 st2,
    mint_to 0 "alice" empty_state = Ok (0, st1) /\
    get_token_owner 0 st1 = Ok ("alice", st1) /\
    mint_to 0 "bob" st1 = Ok (0, st2) /\
    get_token_owner 0 st2 = Ok ("bob", st2).
Proof. do 2 eexists. repeat split; vm_compute; reflexivity. Qed.

(** X12: with one value [t] bound to [tokenId] throughout, below the
    limit, the supply loop never aborts, however long it runs. *)
Lemma mint_loop_never_full (limit : nat) t (owner_id : AccountId) st :
  u64 (t + 1) <= MAX_SUPPLY ->
  default 1 (storage_TOTAL_SUPPLY st) <= MAX_SUPPLY ->
  exists st',
    mint_loop limit t owner_id st = Ok (tt, st') /\
    default 1 (storage_TOTAL_SUPPLY st') <= MAX_SUPPLY.
Proof.
  intros Ht. revert st. induction limit as [| n IH]; intros st Hst.
  - exists st. split; [reflexivity | exact Hst].
  - cbn [mint_loop]. unfold bind at 1. rewrite mint_to_unfold.
    apply Z.leb_le in Hst as Hb. rewrite Hb.
    apply IH. simpl. exact Ht.
Qed.

(** C8: the limit is not tied to the number of tokens minted. On the
    empty registry the supply test's loop of [MAX_SUPPLY] mints
    succeeds, and so does the mint after it, which the test expects to
    be rejected: the counter holds [tokenId + 1], here 1. *)
Theorem mint_to_beyond_max_supply_succeeds :
  exists st10 st11,
    mint_loop (Z.to_nat MAX_SUPPLY) 0 "alice" empty_state = Ok (tt, st10) /\
    storage_TOTAL_SUPPLY st10 = Some 1 /\
    mint_to 0 "alice" st10 = Ok (0, st11).
Proof. do 2 eexists. repeat split; vm_compute; reflexivity. Qed.

(** ** The balance ledger *)

(** An object the host has just built is no constant of the module and
    no argument of the call. *)
Lemma same_object_fresh_constant {A} n m (x y : A) :
  same_object (mkRef (AtFresh n) x) (mkRef (AtConstant m) y) = false.
Proof. reflexivity. Qed.

Lemma same_object_fresh_argument {A} n m (x y : A) :
  same_object (mkRef (AtFresh n) x) (argument m y) = false.
Proof. reflexivity. Qed.

(** The deposit guard lets no invocation through. *)
Lemma ft_transfer_guard ctx (receiver_id : AccountId) amount memo st :
  ft_transfer ctx receiver_id amount memo st
  = Err ERROR_DEPOSIT_DOES_NOT_MATCH_EXPECTATION.
Proof.
  unfold ft_transfer, context_attachedDeposit, EXPECTED_DEPOSIT_object.
  unfold bind at 1. rewrite same_object_fresh_constant. reflexivity.
Qed.

Lemma ft_transfer_call_guard ctx (receiver_id : AccountId) amount memo msg st :
  ft_transfer_call ctx receiver_id amount memo msg st
  = Err ERROR_DEPOSIT_DOES_NOT_MATCH_EXPECTATION.
Proof.
  unfold ft_transfer_call, context_attachedDeposit, EXPECTED_DEPOSIT_object.
  unfold bind at 1. rewrite same_object_fresh_constant. reflexivity.
Qed.

(** C4: a transfer the caller can afford is rejected. With the required
    deposit attached and a balance of 5, sending 3, sending the whole 5
    and sending 0 all fail, with the deposit error; sending 6, more
    than the balance, fails with the deposit error too and not for lack
    of funds. *)
Theorem ft_transfer_rejects_affordable_transfer :
  ft_transfer (call_by "alice" "ft" EXPECTED_DEPOSIT PromiseFailed)
              "bob" 3 None (ledger {[ "alice" := 5 ]})
  = Err ERROR_DEPOSIT_DOES_NOT_MATCH_EXPECTATION /\
  ft_transfer (call_by "alice" "ft" EXPECTED_DEPOSIT PromiseFailed)
              "bob" 5 None (ledger {[ "alice" := 5 ]})
  = Err ERROR_DEPOSIT_DOES_NOT_MATCH_EXPECTATION /\
  ft_transfer (call_by "alice" "ft" EXPECTED_DEPOSIT PromiseFailed)
              "bob" 0 None (ledger {[ "alice" := 5 ]})
  = Err ERROR_DEPOSIT_DOES_NOT_MATCH_EXPECTATION /\
  ft_transfer (call_by "alice" "ft" EXPECTED_DEPOSIT PromiseFailed)
              "bob" 6 None (ledger {[ "alice" := 5 ]})
  = Err ERROR_DEPOSIT_DOES_NOT_MATCH_EXPECTATION.
Proof. repeat split; apply ft_transfer_guard. Qed.

(** [ft_balance_of] hands back the stored record, or [null]. *)
Lemma ft_balance_of_lookup (account_id : AccountId) st :
  ft_balance_of account_id st = Ok (balances st !! account_id, st).
Proof. reflexivity. Qed.

(** C9: for an account with no balance record [ft_balance_of] succeeds
    with [null], not with the amount 0. *)
Theorem ft_balance_of_absent_is_null :
  balances empty_state !! "alice" = None /\
  ft_balance_of "alice" empty_state = Ok (None, empty_state) /\
  ft_balance_of "alice" empty_state <> Ok (Some 0, empty_state).
Proof.
  split; [reflexivity |]. split; [reflexivity |].
  rewrite ft_balance_of_lookup. discriminate.
Qed.

(** ** Resolution of a transfer call *)

(** The caller guard lets no invocation through. *)
Lemma ft_resolve_transfer_guard ctx (sender_id receiver_id : AccountId)
    amount st :
  ft_resolve_transfer ctx sender_id receiver_id amount st
  = Err ERROR_CALLER_ID_DOES_NOT_MATCH_EXPECTATION.
Proof.
  unfold ft_resolve_transfer, context_predecessor.
  unfold bind at 1. rewrite same_object_fresh_argument. reflexivity.
Qed.

(** C3: the contract itself is turned away. Invoked by the contract's
    own account [ft], as the callback of alice's transfer call or with
    its own name as [sender_id], [ft_resolve_transfer] fails with the
    caller error, on any state and whatever the outcome of the
    receiver's call chain. *)
Theorem ft_resolve_transfer_rejects_the_contract st :
  ft_resolve_transfer (call_by "ft" "ft" 0 (PromiseSuccessful 20))
                      "alice" "bob" 100 st
  = Err ERROR_CALLER_ID_DOES_NOT_MATCH_EXPECTATION /\
  ft_resolve_transfer (call_by "ft" "ft" 0 PromiseFailed)
                      "alice" "bob" 100 st
  = Err ERROR_CALLER_ID_DOES_NOT_MATCH_EXPECTATION /\
  ft_resolve_transfer (call_by "ft" "ft" 0 (PromiseSuccessful 20))
                      "ft" "bob" 100 st
  = Err ERROR_CALLER_ID_DOES_NOT_MATCH_EXPECTATION.
Proof. repeat split; apply ft_resolve_transfer_guard. Qed.

(** C2: scenario B moves nothing. alice holds 100 and calls
    [ft_transfer_call] for 100 to bob with the required deposit: the
    call is rejected with the deposit error. The resolution callback,
    invoked by the contract with 20 reported unused, is rejected with
    the caller error and returns no amount. The ledger left behind is
    the one at the start: alice 100 and no record for bob. *)
Theorem ft_transfer_call_scenario_B_moves_nothing :
  ft_transfer_call (call_by "alice" "ft" EXPECTED_DEPOSIT PromiseFailed)
                   "bob" 100 None "msg" (ledger {[ "alice" := 100 ]})
  = Err ERROR_DEPOSIT_DOES_NOT_MATCH_EXPECTATION /\
  ft_resolve_transfer (call_by "ft" "ft" 0 (PromiseSuccessful 20))
                      "alice" "bob" 100 (ledger {[ "alice" := 100 ]})
  = Err ERROR_CALLER_ID_DOES_NOT_MATCH_EXPECTATION /\
  commit
    (ft_resolve_transfer (call_by "ft" "ft" 0 (PromiseSuccessful 20))
       "alice" "bob" 100
       (commit
          (ft_transfer_call
             (call_by "alice" "ft" EXPECTED_DEPOSIT PromiseFailed)
             "bob" 100 None "msg" (ledger {[ "alice" := 100 ]}))
          (ledger {[ "alice" := 100 ]})))
    (ledger {[ "alice" := 100 ]})
  = ledger {[ "alice" := 100 ]} /\
  balances (ledger {[ "alice" := 100 ]}) !! "alice" = Some 100 /\
  balances (ledger {[ "alice" := 100 ]}) !! "bob" = None.
Proof.
  rewrite ft_transfer_call_guard. cbn [commit].
  rewrite ft_resolve_transfer_guard. cbn [commit].
  repeat split; reflexivity.
Qed.

(** ** Further properties of the registry and the escrow directory *)

Lemma State_eta st :
  {| tokenToOwner := tokenToOwner st; escrowAccess := escrowAccess st;
     balances := balances st;
     storage_TOTAL_SUPPLY := storage_TOTAL_SUPPLY st |} = st.
Proof. destruct st; reflexivity. Qed.

Lemma check_access_unfold ctx (account_id : AccountId) st :
  check_access ctx account_id st =
  if bool_decide (predecessor ctx = account_id)
  then Err ERROR_CALLER_ID_DOES_NOT_MATCH_EXPECTATION
  else Ok (bool_decide (escrowAccess st !! account_id = Some (predecessor ctx)),
           st).
Proof.
  unfold check_access. run_call.
  destruct (bool_decide (predecessor ctx = account_id)); simpl; [reflexivity |].
  destruct (escrowAccess st !! account_id) as [e |] eqn:He.
  - rewrite bool_decide_eq_true_2 by eauto. simpl. run_call. rewrite He.
    do 2 f_equal. apply bool_decide_ext. split; congruence.
  - rewrite bool_decide_eq_false_2 by (intros [? ?]; discriminate).
    simpl.
    first [ reflexivity
          | rewrite (bool_decide_eq_false_2 (None = Some (predecessor ctx)))
              by discriminate; reflexivity ].
Qed.

Lemma transfer_from_unfold ctx (owner_id new_owner_id : AccountId)
    (token_id : TokenId) st :
  transfer_from ctx owner_id new_owner_id token_id st =
  match tokenToOwner st !! token_id with
  | None => Err ERROR_KEY_NOT_FOUND
  | Some owner =>
      if bool_decide (owner = owner_id) then
        if includes [Some owner; escrowAccess st !! owner] (predecessor ctx)
        then Ok (tt, with_tokenToOwner
                       (<[token_id := new_owner_id]> (tokenToOwner st)) st)
        else Err ERROR_CALLER_ID_DOES_NOT_MATCH_EXPECTATION
      else Err ERROR_OWNER_ID_DOES_NOT_MATCH_EXPECTATION
  end.
Proof.
  unfold transfer_from. run_call.
  destruct (tokenToOwner st !! token_id) as [owner |]; [| reflexivity].
  destruct (bool_decide (owner = owner_id)); [| reflexivity].
  destruct (includes _ _); reflexivity.
Qed.

(** X1: [check_access] is a pure view that can fail in one way only.
    Asked by an account about itself it is rejected with the caller
    error; asked by anybody else it succeeds, leaves the state as it
    was, and answers whether the record of [account_id] names the
    caller, so [false] when there is no record. The lookup made after
    [contains] never aborts. *)
Theorem check_access_spec ctx (account_id : AccountId) st :
  check_access ctx (predecessor ctx) st
  = Err ERROR_CALLER_ID_DOES_NOT_MATCH_EXPECTATION /\
  check_access ctx account_id st <> Err ERROR_KEY_NOT_FOUND /\
  (predecessor ctx <> account_id ->
   check_access ctx account_id st
   = Ok (bool_decide (escrowAccess st !! account_id = Some (predecessor ctx)),
         st)).
Proof.
  rewrite !check_access_unfold. split; [| split].
  - rewrite bool_decide_eq_true_2 by reflexivity. reflexivity.
  - destruct (bool_decide _); discriminate.
  - intros Hne. rewrite bool_decide_eq_false_2 by exact Hne. reflexivity.
Qed.

(** X2: after [grant_access d] by one account, [check_access] on that
    account by any other caller [c] answers [true] exactly when [c] is
    [d]. *)
Theorem grant_then_check_access ctx_owner ctx_caller (d : AccountId) st :
  predecessor ctx_caller <> predecessor ctx_owner ->
  exists st',
    grant_access ctx_owner d st = Ok (tt, st') /\
    check_access ctx_caller (predecessor ctx_owner) st'
    = Ok (bool_decide (d = predecessor ctx_caller), st').
Proof.
  intros Hne. eexists. split; [reflexivity |].
  rewrite check_access_unfold, bool_decide_eq_false_2 by exact Hne.
  simpl. rewrite lookup_insert_eq. do 2 f_equal.
  apply bool_decide_ext. split; congruence.
Qed.

Lemma grant_then_check_access_witness :
  exists st',
    grant_access (call_by "alice" "nft" 0 PromiseFailed) "bob" empty_state
    = Ok (tt, st') /\
    check_access (call_by "bob" "nft" 0 PromiseFailed) "alice" st'
    = Ok (true, st').
Proof.
  apply (grant_then_check_access (call_by "alice" "nft" 0 PromiseFailed)
           (call_by "bob" "nft" 0 PromiseFailed) "bob" empty_state).
  discriminate.
Defined.

(** X3: the escrow slot is single. Granting [d1] and then [d2] leaves
    exactly the state that granting [d2] alone leaves. *)
Theorem grant_access_overwrites ctx (d1 d2 : AccountId) st :
  (grant_access ctx d1 ;; grant_access ctx d2) st = grant_access ctx d2 st.
Proof.
  unfold grant_access. run_call. unfold with_escrowAccess. simpl.
  rewrite insert_insert_eq. reflexivity.
Qed.

(** X4: granting and then revoking, by an account that had no delegate,
    restores the state it started from. *)
Theorem grant_then_revoke_restores ctx (d d' : AccountId) st :
  escrowAccess st !! predecessor ctx = None ->
  (grant_access ctx d ;; revoke_access ctx d') st = Ok (tt, st).
Proof.
  intros Hnone. unfold grant_access, revoke_access. run_call.
  unfold with_escrowAccess. simpl.
  rewrite delete_insert_id by exact Hnone. rewrite State_eta. reflexivity.
Qed.

Lemma grant_then_revoke_restores_witness :
  (grant_access (call_by "alice" "nft" 0 PromiseFailed) "bob" ;;
   revoke_access (call_by "alice" "nft" 0 PromiseFailed) "bob") empty_state
  = Ok (tt, empty_state).
Proof.
  apply (grant_then_revoke_restores (call_by "alice" "nft" 0 PromiseFailed)
           "bob" "bob" empty_state).
  reflexivity.
Defined.

(** X5: after [revoke_access] by an account, [check_access] on it by any
    other caller answers [false], whoever was the delegate before. *)
Theorem revoke_then_check_access ctx_owner ctx_caller (d : AccountId) st :
  predecessor ctx_caller <> predecessor ctx_owner ->
  exists st',
    revoke_access ctx_owner d st = Ok (tt, st') /\
    check_access ctx_caller (predecessor ctx_owner) st' = Ok (false, st').
Proof.
  intros Hne. eexists. split; [reflexivity |].
  rewrite check_access_unfold, bool_decide_eq_false_2 by exact Hne.
  simpl. rewrite lookup_delete_eq. reflexivity.
Qed.

Lemma revoke_then_check_access_witness :
  exists st',
    revoke_access (call_by "alice" "nft" 0 PromiseFailed) "bob" registry_A
    = Ok (tt, st') /\
    check_access (call_by "bob" "nft" 0 PromiseFailed) "alice" st'
    = Ok (false, st').
Proof.
  apply (revoke_then_check_access (call_by "alice" "nft" 0 PromiseFailed)
           (call_by "bob" "nft" 0 PromiseFailed) "bob" registry_A).
  discriminate.
Defined.

Lemma transfer_from_Ok_inv ctx (owner_id new_owner_id : AccountId)
    (token_id : TokenId) st st' :
  transfer_from ctx owner_id new_owner_id token_id st = Ok (tt, st') ->
  tokenToOwner st !! token_id = Some owner_id /\
  (predecessor ctx = owner_id \/
   escrowAccess st !! owner_id = Some (predecessor ctx)) /\
  st' = with_tokenToOwner (<[token_id := new_owner_id]> (tokenToOwner st)) st.
Proof.
  rewrite transfer_from_unfold.
  destruct (tokenToOwner st !! token_id) as [owner |]; [| discriminate].
  destruct (bool_decide (owner = owner_id)) eqn:Ho; [| discriminate].
  apply bool_decide_eq_true in Ho. subst owner.
  destruct (includes _ _) eqn:Hin; [| discriminate].
  apply includes_owner_escrow in Hin. intros [= <-]. auto.
Qed.

(** X6: [transfer_from] aborts on the missing key exactly for a token
    that was never recorded, and it succeeds exactly when the token is
    recorded for [owner_id] and the caller is [owner_id] or the delegate
    recorded for [owner_id]. *)
Theorem transfer_from_succeeds_iff ctx (owner_id new_owner_id : AccountId)
    (token_id : TokenId) st :
  (transfer_from ctx owner_id new_owner_id token_id st
   = Err ERROR_KEY_NOT_FOUND <-> tokenToOwner st !! token_id = None) /\
  (succeeds (transfer_from ctx owner_id new_owner_id token_id st) = true <->
   tokenToOwner st !! token_id = Some owner_id /\
   (predecessor ctx = owner_id \/
    escrowAccess st !! owner_id = Some (predecessor ctx))).
Proof.
  rewrite transfer_from_unfold.
  destruct (tokenToOwner st !! token_id) as [owner |].
  - split; [split; [| discriminate] |].
    + destruct (bool_decide _); [destruct (includes _ _) |]; discriminate.
    + destruct (bool_decide (owner = owner_id)) eqn:Ho.
      * apply bool_decide_eq_true in Ho. subst owner.
        destruct (includes _ _) eqn:Hin; simpl.
        -- apply includes_owner_escrow in Hin. tauto.
        -- split; [discriminate |]. intros [_ H].
           apply includes_owner_escrow in H. congruence.
      * apply bool_decide_eq_false in Ho. simpl.
        split; [discriminate |]. intros [[= H] _]. contradiction.
  - split; [tauto |]. simpl. split; [discriminate |].
    intros [H _]. discriminate H.
Qed.

(** X7: a successful [transfer_from] rewrites one ownership record and
    nothing else. Afterwards [get_token_owner] gives the new owner for
    the token, every other token has the owner it had, the set of
    recorded tokens is the same, and the escrow records (the caller's
    authority included), the balances and the supply counter are
    untouched. *)
Theorem transfer_from_frame ctx (owner_id new_owner_id : AccountId)
    (token_id : TokenId) st st' :
  transfer_from ctx owner_id new_owner_id token_id st = Ok (tt, st') ->
  get_token_owner token_id st' = Ok (new_owner_id, st') /\
  (forall t, t <> token_id -> get_token_owner t st' = 
                              match get_token_owner t st with
                              | Ok (o, _) => Ok (o, st')
                              | Err e => Err e
                              end) /\
  dom (tokenToOwner st') = dom (tokenToOwner st) /\
  escrowAccess st' = escrowAccess st /\
  balances st' = balances st /\
  storage_TOTAL_SUPPLY st' = storage_TOTAL_SUPPLY st.
Proof.
  intros H. apply transfer_from_Ok_inv in H as (Hown & _ & ->).
  split; [| split; [| split]].
  - apply get_token_owner_Some. simpl. apply lookup_insert_eq.
  - intros t Hne. unfold get_token_owner, tokenToOwner_getSome. simpl.
    rewrite lookup_insert_ne by congruence.
    destruct (tokenToOwner st !! t); reflexivity.
  - simpl. apply dom_insert_lookup_L. eauto.
  - auto.
Qed.

Lemma transfer_from_frame_witness :
  get_token_owner 1
    (with_tokenToOwner (<[1 := "carol"]> (tokenToOwner registry_A)) registry_A)
  = Ok ("carol",
        with_tokenToOwner (<[1 := "carol"]> (tokenToOwner registry_A))
          registry_A).
Proof.
  apply (transfer_from_frame (call_by "bob" "nft" 0 PromiseFailed)
           "alice" "carol" 1 registry_A).
  vm_compute. reflexivity.
Defined.

(** X8: a transfer cannot be replayed. After a successful
    [transfer_from] to an account other than [owner_id], any further
    [transfer_from] naming [owner_id] as the owner of that token, by any
    caller, is rejected with the owner mismatch error. *)
Theorem transfer_from_no_replay ctx ctx2
    (owner_id new_owner_id n2 : AccountId) (token_id : TokenId) st st' :
  transfer_from ctx owner_id new_owner_id token_id st = Ok (tt, st') ->
  new_owner_id <> owner_id ->
  transfer_from ctx2 owner_id n2 token_id st'
  = Err ERROR_OWNER_ID_DOES_NOT_MATCH_EXPECTATION.
Proof.
  intros H Hne. apply transfer_from_Ok_inv in H as (_ & _ & ->).
  rewrite transfer_from_unfold. simpl. rewrite lookup_insert_eq.
  rewrite bool_decide_eq_false_2 by exact Hne. reflexivity.
Qed.

Lemma transfer_from_no_replay_witness :
  transfer_from (call_by "bob" "nft" 0 PromiseFailed) "alice" "bob" 1
    (with_tokenToOwner (<[1 := "carol"]> (tokenToOwner registry_A)) registry_A)
  = Err ERROR_OWNER_ID_DOES_NOT_MATCH_EXPECTATION.
Proof.
  apply (transfer_from_no_replay (call_by "bob" "nft" 0 PromiseFailed)
           (call_by "bob" "nft" 0 PromiseFailed)
           "alice" "carol" "bob" 1 registry_A).
  - vm_compute. reflexivity.
  - discriminate.
Defined.

(** X9: moving one token does not change who may move the others. After
    a successful [transfer_from] of [token_id], a [transfer_from] of any
    other token is accepted or rejected, and rejected with the same
    error, exactly as it was before: the escrow is not revoked by use. *)
Theorem transfer_from_keeps_other_authority ctx ctx2
    (owner_id new_owner_id o2 n2 : AccountId) (token_id t2 : TokenId)
    st st' :
  transfer_from ctx owner_id new_owner_id token_id st = Ok (tt, st') ->
  t2 <> token_id ->
  match transfer_from ctx2 o2 n2 t2 st', transfer_from ctx2 o2 n2 t2 st with
  | Ok _, Ok _ => True
  | Err e', Err e => e' = e
  | _, _ => False
  end.
Proof.
  intros H Hne. apply transfer_from_Ok_inv in H as (_ & _ & ->).
  rewrite !transfer_from_unfold.
  cbn [tokenToOwner escrowAccess with_tokenToOwner].
  rewrite lookup_insert_ne by congruence.
  destruct (tokenToOwner st !! t2) as [owner |]; [| reflexivity].
  destruct (bool_decide (owner = o2)); [| reflexivity].
  destruct (includes _ _); [exact I | reflexivity].
Qed.

Lemma transfer_from_keeps_other_authority_witness :
  match
    transfer_from (call_by "bob" "nft" 0 PromiseFailed) "alice" "bob" 2
      (with_tokenToOwner
         (<[1 := "carol"]> (tokenToOwner (with_tokenToOwner
            (<[2 := "alice"]> (tokenToOwner registry_A)) registry_A)))
         (with_tokenToOwner (<[2 := "alice"]> (tokenToOwner registry_A))
            registry_A)),
    transfer_from (call_by "bob" "nft" 0 PromiseFailed) "alice" "bob" 2
      (with_tokenToOwner (<[2 := "alice"]> (tokenToOwner registry_A))
         registry_A)
  with
  | Ok _, Ok _ => True
  | Err e', Err e => e' = e
  | _, _ => False
  end.
Proof.
  apply (transfer_from_keeps_other_authority
           (call_by "bob" "nft" 0 PromiseFailed)
           (call_by "bob" "nft" 0 PromiseFailed)
           "alice" "carol" "alice" "bob" 1 2
           (with_tokenToOwner (<[2 := "alice"]> (tokenToOwner registry_A))
              registry_A)).
  - vm_compute. reflexivity.
  - discriminate.
Defined.

(** ** Further properties of minting *)

(** X11: what a successful [mint_to] does. It returns the identifier
    bound to [tokenId], after which [get_token_owner] gives [owner_id]
    for it, replacing any owner recorded before; the owners of all
    other tokens, the escrow records and the balances are untouched,
    and the stored counter is [tokenId + 1] wrapped to 64 bits. *)
Theorem mint_to_effects tokenId (owner_id : AccountId) st r st' :
  mint_to tokenId owner_id st = Ok (r, st') ->
  r = tokenId /\
  get_token_owner r st' = Ok (owner_id, st') /\
  (forall t, t <> tokenId -> tokenToOwner st' !! t = tokenToOwner st !! t) /\
  storage_TOTAL_SUPPLY st' = Some ((tokenId + 1) mod 2 ^ 64) /\
  escrowAccess st' = escrowAccess st /\
  balances st' = balances st.
Proof.
  rewrite mint_to_unfold. destruct (_ <=? _); [| discriminate].
  intros [= <- <-]. split; [reflexivity |]. split; [| split].
  - apply get_token_owner_Some. simpl. apply lookup_insert_eq.
  - intros t Hne. simpl. apply lookup_insert_ne. congruence.
  - auto.
Qed.

Lemma mint_to_effects_witness :
  get_token_owner 1
    (with_TOTAL_SUPPLY (Some 2)
       (with_tokenToOwner (<[1 := "bob"]> (tokenToOwner registry_A))
          registry_A))
  = Ok ("bob",
        with_TOTAL_SUPPLY (Some 2)
          (with_tokenToOwner (<[1 := "bob"]> (tokenToOwner registry_A))
             registry_A)).
Proof.
  apply (mint_to_effects 1 "bob" registry_A 1).
  vm_compute. reflexivity.
Defined.

Lemma mint_loop_never_full_witness :
  exists st',
    mint_loop 25 0 "alice" empty_state = Ok (tt, st') /\
    default 1 (storage_TOTAL_SUPPLY st') <= MAX_SUPPLY.
Proof.
  apply (mint_loop_never_full 25 0 "alice" empty_state).
  - vm_compute. discriminate.
  - vm_compute. discriminate.
Defined.

(** X13: a mint that stores a counter above the limit closes the
    registry. After a successful [mint_to] whose identifier [t] has
    [t + 1] (wrapped to 64 bits) greater than [MAX_SUPPLY], every later
    [mint_to], for any identifier and owner, is rejected with the limit
    error. *)
Theorem mint_to_closes_registry t t' (owner_id owner' : AccountId) st r st' :
  mint_to t owner_id st = Ok (r, st') ->
  MAX_SUPPLY < u64 (t + 1) ->
  mint_to t' owner' st' = Err ERROR_MAXIMUM_TOKEN_LIMIT_REACHED.
Proof.
  rewrite (mint_to_unfold t). destruct (_ <=? _); [| discriminate].
  intros [= <- <-] Hlim. rewrite mint_to_unfold. simpl.
  apply Z.leb_gt in Hlim. rewrite Hlim. reflexivity.
Qed.

Lemma mint_to_closes_registry_witness :
  mint_to 11 "bob"
    (with_TOTAL_SUPPLY (Some 11)
       (with_tokenToOwner (<[10 := "alice"]> (tokenToOwner empty_state))
          empty_state))
  = Err ERROR_MAXIMUM_TOKEN_LIMIT_REACHED.
Proof.
  apply (mint_to_closes_registry 10 11 "alice" "bob" empty_state 10).
  - vm_compute. reflexivity.
  - vm_compute. reflexivity.
Defined.

(** ** Further properties of the fungible token *)

(** X14: the deposit is checked first. With any other deposit attached
    than the expected one, [ft_transfer] and [ft_transfer_call] are
    rejected with the deposit error, whatever the balances and the
    amount. *)
Theorem ft_transfer_deposit_checked_first ctx (receiver_id : AccountId)
    amount memo msg st :
  attachedDeposit ctx <> EXPECTED_DEPOSIT ->
  ft_transfer ctx receiver_id amount memo st
  = Err ERROR_DEPOSIT_DOES_NOT_MATCH_EXPECTATION /\
  ft_transfer_call ctx receiver_id amount memo msg st
  = Err ERROR_DEPOSIT_DOES_NOT_MATCH_EXPECTATION.
Proof.
  intros _. split; [apply ft_transfer_guard | apply ft_transfer_call_guard].
Qed.

(** X15: the funds check is never reached. Whatever deposit is
    attached, the expected one included, and whatever the caller's
    balance and the amount, [ft_transfer] and [ft_transfer_call] fail
    with the deposit error, so never for lack of funds, and the state
    they leave is the state they found. *)
Theorem ft_transfer_never_reaches_funds_check ctx (receiver_id : AccountId)
    amount memo msg st :
  ft_transfer ctx receiver_id amount memo st
  = Err ERROR_DEPOSIT_DOES_NOT_MATCH_EXPECTATION /\
  ft_transfer_call ctx receiver_id amount memo msg st
  = Err ERROR_DEPOSIT_DOES_NOT_MATCH_EXPECTATION /\
  ft_transfer ctx receiver_id amount memo st <> Err ERROR_INSUFFICIENT_FUNDS /\
  commit (ft_transfer ctx receiver_id amount memo st) st = st /\
  commit (ft_transfer_call ctx receiver_id amount memo msg st) st = st.
Proof.
  rewrite ft_transfer_guard, ft_transfer_call_guard.
  repeat split; try reflexivity. discriminate.
Qed.

(** X21: [ft_resolve_transfer] turns every caller away. Whoever calls
    it, the account named as [sender_id] and the contract's own
    account included, and whatever the outcome of the receiver's call
    chain, it fails with the caller error and the state it leaves is
    the state it found. *)
Theorem ft_resolve_transfer_rejects_every_caller ctx
    (sender_id receiver_id : AccountId) amount st :
  ft_resolve_transfer ctx sender_id receiver_id amount st
  = Err ERROR_CALLER_ID_DOES_NOT_MATCH_EXPECTATION /\
  ft_resolve_transfer ctx (predecessor ctx) receiver_id amount st
  = Err ERROR_CALLER_ID_DOES_NOT_MATCH_EXPECTATION /\
  ft_resolve_transfer ctx (contractName ctx) receiver_id amount st
  = Err ERROR_CALLER_ID_DOES_NOT_MATCH_EXPECTATION /\
  commit (ft_resolve_transfer ctx sender_id receiver_id amount st) st = st.
Proof.
  rewrite !ft_resolve_transfer_guard. repeat split; reflexivity.
Qed.

End Contract.

(** ** Instances at a deposit of one unit *)

Lemma ft_transfer_deposit_checked_first_witness :
  ft_transfer 1 (call_by "alice" "ft" 0 PromiseFailed) "bob" 3 None
    (ledger {[ "alice" := 10 ]})
  = Err ERROR_DEPOSIT_DOES_NOT_MATCH_EXPECTATION /\
  ft_transfer_call 1 (call_by "alice" "ft" 0 PromiseFailed) "bob" 3 None "msg"
    (ledger {[ "alice" := 10 ]})
  = Err ERROR_DEPOSIT_DOES_NOT_MATCH_EXPECTATION.
Proof.
  apply (ft_transfer_deposit_checked_first 1
           (call_by "alice" "ft" 0 PromiseFailed) "bob" 3 None "msg"
           (ledger {[ "alice" := 10 ]})).
  discriminate.
Defined.
